(** * libclient.py: the client side of the secure messaging protocol

  A shallow embedding of the class [Message] of [src/libclient.py]:
  the frame builder [_create_message], the frame parser
  [process_response], the socket helpers [_read], [read], [close] and
  the request queue.  Python's mutable object, its exceptions and the
  resolution of local names are modelled explicitly, because the
  behaviour of both codec methods is decided by them. *)

From Stdlib Require Import ZArith Lia Sorted.
From stdpp Require Import gmap strings list pretty.

Local Open Scope Z_scope.

(** ** Byte strings *)

Module Bytes.

Abbreviation byte := Byte.byte.
Abbreviation bytes := (list Byte.byte).

Definition byte_of_Z (z : Z) : byte :=
  default Byte.x00 (Byte.of_N (Z.to_N (z mod 256))).

Definition Z_of_byte (b : byte) : Z := Z.of_N (Byte.to_N b).

(** [len(b)] for a bytes object. *)
Definition blen (b : bytes) : Z := Z.of_nat (length b).

(** [int.from_bytes(b, byteorder='big')]; the empty string gives 0. *)
Definition from_bytes (b : bytes) : Z :=
  fold_left (fun acc x => acc * 256 + Z_of_byte x) b 0.

(** The two digits of [n.to_bytes(2, byteorder='big')], for n in range. *)
Definition be16 (n : Z) : bytes := [byte_of_Z (n / 256); byte_of_Z n].

(** Python's slice [s[lo:hi]]: a missing bound is [None], a negative
    bound counts from the end, and every bound is clamped to the
    string, so a slice never raises. *)
Definition clamp (n i : Z) : Z :=
  if i <? 0 then Z.max 0 (n + i) else Z.min i n.

Definition slice (lo hi : option Z) (s : bytes) : bytes :=
  let n := blen s in
  let l := from_option (clamp n) 0 lo in
  let h := from_option (clamp n) n hi in
  take (Z.to_nat (h - l)) (drop (Z.to_nat l) s).

End Bytes.
Export Bytes.

(** ** Exceptions and results *)

Inductive exn :=
| UnboundLocalError (name : string)
| NameError (name : string)
| TypeError (msg : string)
| ValueError (msg : string)
| OverflowError (msg : string)
| RuntimeError (msg : string)
| AttributeError (msg : string)
| KeyError (key : string)
| BlockingIOError
| FileNotFoundError (path : string)
| OSError (msg : string).

Inductive result (A : Type) :=
| Ok (a : A)
| Raise (e : exn).
Arguments Ok {A} a.
Arguments Raise {A} e.

Global Instance result_ret : MRet result := @Ok.
Global Instance result_bind : MBind result := fun A B k r =>
  match r with
  | Ok a => k a
  | Raise e => Raise e
  end.

(** [n.to_bytes(2, byteorder='big')]. *)
Definition to_bytes2 (n : Z) : result bytes :=
  if n <? 0 then Raise (OverflowError "can't convert negative int to unsigned")
  else if 65536 <=? n then Raise (OverflowError "int too big to convert")
  else Ok (be16 n).

(** ** Names, values and calls

  A name that is assigned anywhere in the body of a Python function is
  a local of that function for the whole body; reading it before the
  assignment has run raises [UnboundLocalError] and never falls back
  to the builtin of the same name.  Both codec methods assign the
  name [len] and also call it, so the name goes through this
  mechanism. *)

Module Py.

Inductive builtin := Blen.

Inductive pyval :=
| VNone
| VInt (n : Z)
| VBytes (b : bytes)
| VBuiltin (f : builtin).

(** The builtins the module refers to through a name that some
    function also assigns.  The module itself defines no global
    [len]. *)
Definition builtins : gmap string pyval := {[ "len" := VBuiltin Blen ]}.

(** A code object: the names its body assigns (its parameters
    included), as the compiler collects them. *)
Record code := { co_varnames : gset string }.

(** The locals of a running call: the names bound so far. *)
Abbreviation frame := (gmap string pyval).

(** Reading a name inside a function. *)
Definition load (co : code) (f : frame) (x : string) : result pyval :=
  if bool_decide (x ∈ co_varnames co) then
    match f !! x with
    | Some v => Ok v
    | None => Raise (UnboundLocalError x)
    end
  else
    match builtins !! x with
    | Some v => Ok v
    | None => Raise (NameError x)
    end.

(** The call [f(arg)] with one positional argument.  The only callable
    value is the builtin [len], so a call that returns returns an
    integer. *)
Definition call (f arg : pyval) : result Z :=
  match f with
  | VBuiltin Blen =>
      match arg with
      | VBytes b => Ok (blen b)
      | VInt _ => Raise (TypeError "object of type 'int' has no len()")
      | VNone => Raise (TypeError "object of type 'NoneType' has no len()")
      | VBuiltin _ =>
          Raise (TypeError "object of type 'builtin_function_or_method' has no len()")
      end
  | VBytes _ => Raise (TypeError "'bytes' object is not callable")
  | VInt _ => Raise (TypeError "'int' object is not callable")
  | VNone => Raise (TypeError "'NoneType' object is not callable")
  end.

(** The operand of a [bytes + ...] concatenation or of
    [int.from_bytes]. *)
Definition as_bytes (v : pyval) : result bytes :=
  match v with
  | VBytes b => Ok b
  | _ => Raise (TypeError "a bytes-like object is required")
  end.

End Py.
Export Py.

(** ** The environment of a connection

    What the module reaches through its imports and the operating
    system: the AES-GCM and RSA-OAEP primitives of PyCryptodome, the
    random source, the file [pubkey.pem] and the socket.  They are not
    part of the repository and are taken as an interface. *)

Class Env := {
  (** [AE.encrypt_and_digest(value)] of a GCM cipher made with the given
      key, nonce and tag length, after [AE.update(aad)]: ciphertext and
      tag. *)
  gcm_encrypt_and_digest :
    forall (key nonce : bytes) (mac_len : Z) (aad plaintext : bytes), bytes * bytes;
  (** [AE.decrypt_and_verify(ciphertext, tag)]: the plaintext, or [None]
      where the library raises [ValueError("MAC check failed")]. *)
  gcm_decrypt_and_verify :
    forall (key nonce : bytes) (mac_len : Z) (aad ciphertext tag : bytes), option bytes;
  (** An imported RSA public key. *)
  pubkey : Type;
  (** [RSA.import_key]: [None] where the library raises [ValueError]. *)
  rsa_import_key : bytes -> option pubkey;
  (** [PKCS1_OAEP.new(pubkey).encrypt(message)]. *)
  oaep_encrypt : pubkey -> bytes -> result bytes;
  (** [Random.get_random_bytes]: the stream of bytes the source yields. *)
  urandom : nat -> byte;
  (** The content of the file [pubkey.pem], when it exists. *)
  pubkey_pem : option bytes;
  (** Whether [socket.close()] fails in the operating system. *)
  sock_close_error : option string
}.

(** ** The object and its world *)

Inductive socket := Socket (fileno : Z).

(** The value of [request["content"]]: the keyword arguments of
    [_create_message]. *)
Record content := { action : string; value : bytes }.

(** What the program does to the outside, in order.  [Enter] is the
    only entry that is not an effect of the program: it records that
    [process_response] started and the buffer it started on. *)
Inductive event :=
| Stdout (line : string)
| StdoutBytes (b : bytes)
| SelectorModify (events : Z)
| SelectorUnregister
| SocketRecv (bufsize : Z)
| SocketSend (data : bytes)
| SocketClose
| AesGcmNew (key nonce : bytes) (mac_len : Z)
| AesUpdate (aad : bytes)
| AesEncryptAndDigest (plaintext : bytes)
| AesDecryptAndVerify (ciphertext tag : bytes)
| OpenFile (path : string)
| RsaOaepEncrypt (message : bytes)
| Enter (recv_buffer : bytes).

Record Message := {
  sock : option socket;
  addr : string;
  request : gmap string content;
  _recv_buffer : bytes;
  _send_buffer : bytes;
  _request_queued : bool;
  key : option bytes;
  _header_len : Z;
  _authtag_len : Z;
  _sqn : Z;
  _rcvsqn : Z;
  (** the selector's registration of the socket: the events it waits
      for, [None] once unregistered *)
  registered : option Z;
  (** whether the operating system's socket has been closed *)
  sock_closed : bool;
  (** how many bytes of [urandom] have been drawn *)
  drawn : nat;
  log : list event
}.

Definition set_sock (v : option socket) (m : Message) : Message :=
  {| sock := v; addr := addr m; request := request m;
     _recv_buffer := _recv_buffer m; _send_buffer := _send_buffer m;
     _request_queued := _request_queued m; key := key m;
     _header_len := _header_len m; _authtag_len := _authtag_len m;
     _sqn := _sqn m; _rcvsqn := _rcvsqn m; registered := registered m;
     sock_closed := sock_closed m; drawn := drawn m; log := log m |}.

Definition set_recv_buffer (v : bytes) (m : Message) : Message :=
  {| sock := sock m; addr := addr m; request := request m;
     _recv_buffer := v; _send_buffer := _send_buffer m;
     _request_queued := _request_queued m; key := key m;
     _header_len := _header_len m; _authtag_len := _authtag_len m;
     _sqn := _sqn m; _rcvsqn := _rcvsqn m; registered := registered m;
     sock_closed := sock_closed m; drawn := drawn m; log := log m |}.

Definition set_send_buffer (v : bytes) (m : Message) : Message :=
  {| sock := sock m; addr := addr m; request := request m;
     _recv_buffer := _recv_buffer m; _send_buffer := v;
     _request_queued := _request_queued m; key := key m;
     _header_len := _header_len m; _authtag_len := _authtag_len m;
     _sqn := _sqn m; _rcvsqn := _rcvsqn m; registered := registered m;
     sock_closed := sock_closed m; drawn := drawn m; log := log m |}.

Definition set_request_queued (v : bool) (m : Message) : Message :=
  {| sock := sock m; addr := addr m; request := request m;
     _recv_buffer := _recv_buffer m; _send_buffer := _send_buffer m;
     _request_queued := v; key := key m;
     _header_len := _header_len m; _authtag_len := _authtag_len m;
     _sqn := _sqn m; _rcvsqn := _rcvsqn m; registered := registered m;
     sock_closed := sock_closed m; drawn := drawn m; log := log m |}.

Definition set_key (v : option bytes) (m : Message) : Message :=
  {| sock := sock m; addr := addr m; request := request m;
     _recv_buffer := _recv_buffer m; _send_buffer := _send_buffer m;
     _request_queued := _request_queued m; key := v;
     _header_len := _header_len m; _authtag_len := _authtag_len m;
     _sqn := _sqn m; _rcvsqn := _rcvsqn m; registered := registered m;
     sock_closed := sock_closed m; drawn := drawn m; log := log m |}.

Definition set_sqn (v : Z) (m : Message) : Message :=
  {| sock := sock m; addr := addr m; request := request m;
     _recv_buffer := _recv_buffer m; _send_buffer := _send_buffer m;
     _request_queued := _request_queued m; key := key m;
     _header_len := _header_len m; _authtag_len := _authtag_len m;
     _sqn := v; _rcvsqn := _rcvsqn m; registered := registered m;
     sock_closed := sock_closed m; drawn := drawn m; log := log m |}.

Definition set_rcvsqn (v : Z) (m : Message) : Message :=
  {| sock := sock m; addr := addr m; request := request m;
     _recv_buffer := _recv_buffer m; _send_buffer := _send_buffer m;
     _request_queued := _request_queued m; key := key m;
     _header_len := _header_len m; _authtag_len := _authtag_len m;
     _sqn := _sqn m; _rcvsqn := v; registered := registered m;
     sock_closed := sock_closed m; drawn := drawn m; log := log m |}.

Definition set_registered (v : option Z) (m : Message) : Message :=
  {| sock := sock m; addr := addr m; request := request m;
     _recv_buffer := _recv_buffer m; _send_buffer := _send_buffer m;
     _request_queued := _request_queued m; key := key m;
     _header_len := _header_len m; _authtag_len := _authtag_len m;
     _sqn := _sqn m; _rcvsqn := _rcvsqn m; registered := v;
     sock_closed := sock_closed m; drawn := drawn m; log := log m |}.

Definition set_sock_closed (v : bool) (m : Message) : Message :=
  {| sock := sock m; addr := addr m; request := request m;
     _recv_buffer := _recv_buffer m; _send_buffer := _send_buffer m;
     _request_queued := _request_queued m; key := key m;
     _header_len := _header_len m; _authtag_len := _authtag_len m;
     _sqn := _sqn m; _rcvsqn := _rcvsqn m; registered := registered m;
     sock_closed := v; drawn := drawn m; log := log m |}.

Definition set_drawn (v : nat) (m : Message) : Message :=
  {| sock := sock m; addr := addr m; request := request m;
     _recv_buffer := _recv_buffer m; _send_buffer := _send_buffer m;
     _request_queued := _request_queued m; key := key m;
     _header_len := _header_len m; _authtag_len := _authtag_len m;
     _sqn := _sqn m; _rcvsqn := _rcvsqn m; registered := registered m;
     sock_closed := sock_closed m; drawn := v; log := log m |}.

Definition set_log (v : list event) (m : Message) : Message :=
  {| sock := sock m; addr := addr m; request := request m;
     _recv_buffer := _recv_buffer m; _send_buffer := _send_buffer m;
     _request_queued := _request_queued m; key := key m;
     _header_len := _header_len m; _authtag_len := _authtag_len m;
     _sqn := _sqn m; _rcvsqn := _rcvsqn m; registered := registered m;
     sock_closed := sock_closed m; drawn := drawn m; log := v |}.

(** ** Commands: state and exceptions

    A method is a function from the object before the call to its
    outcome and the object after it.  A raised exception keeps every
    mutation made before it, as in Python. *)

Definition M (A : Type) : Type := Message -> result A * Message.

Definition ret {A} (a : A) : M A := fun m => (Ok a, m).

Definition bind {A B} (c : M A) (k : A -> M B) : M B :=
  fun m =>
    match c m with
    | (Ok a, m') => k a m'
    | (Raise e, m') => (Raise e, m')
    end.

Definition raise {A} (e : exn) : M A := fun m => (Raise e, m).

Definition lift {A} (r : result A) : M A := fun m => (r, m).

Definition get {A} (f : Message -> A) : M A := fun m => (Ok (f m), m).

Definition modify (f : Message -> Message) : M unit := fun m => (Ok tt, f m).

Definition emit (e : event) : M unit := modify (fun m => set_log (log m ++ [e]) m).

(** [try: c  except <handled>: h], where [handles e] says whether the
    clause catches [e]. *)
Definition try_except {A} (c : M A) (handles : exn -> bool) (h : exn -> M A) : M A :=
  fun m =>
    match c m with
    | (Ok a, m') => (Ok a, m')
    | (Raise e, m') => if handles e then h e m' else (Raise e, m')
    end.

(** [try: c  finally: f]. *)
Definition try_finally {A} (c : M A) (f : M unit) : M A :=
  fun m =>
    match c m with
    | (r, m') =>
        match f m' with
        | (Ok _, m'') => (r, m'')
        | (Raise e, m'') => (Raise e, m'')
        end
    end.

Global Instance M_ret : MRet M := @ret.
Global Instance M_bind : MBind M := fun A B k c => bind c k.

(** Which exceptions the clauses of the source catch.  Every exception
    of this model is an [Exception]; [OSError] has [FileNotFoundError]
    as a subclass. *)
Definition is_Exception (e : exn) : bool := true.

Definition is_OSError (e : exn) : bool :=
  match e with
  | OSError _ | FileNotFoundError _ | BlockingIOError => true
  | _ => false
  end.

Definition is_BlockingIOError (e : exn) : bool :=
  match e with
  | BlockingIOError => true
  | _ => false
  end.

(** Python's [repr] of a string, for strings of code points below 256:
    single quotes unless the string holds a single quote and no double
    quote; the backslash, the chosen quote, newline, carriage return
    and tab are escaped, every other non-printable character is
    written [\xNN]. *)
Definition squote : Ascii.ascii := Ascii.ascii_of_nat 39.
Definition dquote : Ascii.ascii := Ascii.ascii_of_nat 34.
Definition backslash : Ascii.ascii := Ascii.ascii_of_nat 92.

Fixpoint contains (c : Ascii.ascii) (s : string) : bool :=
  match s with
  | EmptyString => false
  | String x s' => Ascii.eqb x c || contains c s'
  end.

Definition hex_digit (n : nat) : Ascii.ascii :=
  if (n <? 10)%nat then Ascii.ascii_of_nat (48 + n) else Ascii.ascii_of_nat (87 + n).

Definition isprintable (c : Ascii.ascii) : bool :=
  let n := Ascii.nat_of_ascii c in
  ((32 <=? n) && (n <=? 126) || (161 <=? n) && negb (n =? 173))%nat.

Definition escape (q c : Ascii.ascii) : string :=
  let n := Ascii.nat_of_ascii c in
  if Ascii.eqb c backslash then String backslash (String backslash EmptyString)
  else if Ascii.eqb c q then String backslash (String q EmptyString)
  else if (n =? 10)%nat then String backslash "n"
  else if (n =? 13)%nat then String backslash "r"
  else if (n =? 9)%nat then String backslash "t"
  else if isprintable c then String c EmptyString
  else String backslash
         ("x" +:+ String (hex_digit (n / 16)) (String (hex_digit (n mod 16)) EmptyString)).

Fixpoint escape_all (q : Ascii.ascii) (s : string) : string :=
  match s with
  | EmptyString => EmptyString
  | String c s' => escape q c +:+ escape_all q s'
  end.

Definition repr_str (s : string) : string :=
  let q := if contains squote s && negb (contains dquote s) then dquote else squote in
  String q (escape_all q s +:+ String q EmptyString).

(** [repr(e)] of an exception, as [{e!r}] prints it: the class and the
    [repr] of its message.  The messages of exceptions raised inside
    the libraries are the libraries' own; the code only ever tests the
    class. *)
Definition repr (e : exn) : string :=
  match e with
  | UnboundLocalError x =>
      "UnboundLocalError("
        +:+ repr_str ("cannot access local variable '" +:+ x
                        +:+ "' where it is not associated with a value")
        +:+ ")"
  | NameError x => "NameError(" +:+ repr_str ("name '" +:+ x +:+ "' is not defined") +:+ ")"
  | TypeError s => "TypeError(" +:+ repr_str s +:+ ")"
  | ValueError s => "ValueError(" +:+ repr_str s +:+ ")"
  | OverflowError s => "OverflowError(" +:+ repr_str s +:+ ")"
  | RuntimeError s => "RuntimeError(" +:+ repr_str s +:+ ")"
  | AttributeError s => "AttributeError(" +:+ repr_str s +:+ ")"
  | KeyError s => "KeyError(" +:+ repr_str s +:+ ")"
  | BlockingIOError => "BlockingIOError()"
  | FileNotFoundError s =>
      "FileNotFoundError(2, 'No such file or directory')"
  | OSError s => "OSError(" +:+ repr_str s +:+ ")"
  end.

Definition print (line : string) : M unit := emit (Stdout line).

(** ** The methods of [Message] *)

Section Methods.

Context `{Env}.

(** *** External calls *)

(** [Random.get_random_bytes(n)]. *)
Definition get_random_bytes (n : nat) : M bytes :=
  fun m => (Ok (map urandom (seq (drawn m) n)), set_drawn (drawn m + n)%nat m).

Definition EVENT_READ : Z := 1.
Definition EVENT_WRITE : Z := 2.

(** [self.selector.modify(self.sock, events, data=self)]. *)
Definition selector_modify (events : Z) : M unit :=
  s ← get sock;
  r ← get registered;
  match s, r with
  | None, _ => raise (ValueError "Invalid file object: None")
  | Some _, None => raise (KeyError "socket is not registered")
  | Some _, Some _ =>
      emit (SelectorModify events);;
      modify (set_registered (Some events))
  end.

(** [self.selector.unregister(self.sock)]. *)
Definition selector_unregister : M unit :=
  s ← get sock;
  r ← get registered;
  match s, r with
  | None, _ => raise (ValueError "Invalid file object: None")
  | Some _, None => raise (KeyError "socket is not registered")
  | Some _, Some _ =>
      emit SelectorUnregister;;
      modify (set_registered None)
  end.

(** [self.sock.recv(bufsize)]; [o] is what the socket answers. *)
Definition sock_recv (bufsize : Z) (o : result bytes) : M bytes :=
  s ← get sock;
  match s with
  | None => raise (AttributeError "'NoneType' object has no attribute 'recv'")
  | Some _ => emit (SocketRecv bufsize);; lift o
  end.

(** [self.sock.send(data)]; [o] is what the socket answers. *)
Definition sock_send (data : bytes) (o : result Z) : M Z :=
  s ← get sock;
  match s with
  | None => raise (AttributeError "'NoneType' object has no attribute 'send'")
  | Some _ => emit (SocketSend data);; lift o
  end.

(** [self.sock.close()]. *)
Definition sock_close : M unit :=
  s ← get sock;
  match s with
  | None => raise (AttributeError "'NoneType' object has no attribute 'close'")
  | Some _ =>
      match sock_close_error with
      | Some msg => raise (OSError msg)
      | None => emit SocketClose;; modify (set_sock_closed true)
      end
  end.

(** A GCM cipher object: what [AES.new] was given and what
    [AE.update] added. *)
Record cipher := { ae_key : bytes; ae_nonce : bytes; ae_mac_len : Z; ae_aad : bytes }.

(** [AES.new(key, AES.MODE_GCM, nonce=nonce, mac_len=mac_len)] with the
    argument checks of the library in the order it makes them: the
    nonce, the copy of the key (which fails on [None]), the tag length,
    then the length of the key. *)
Definition AES_new (k : option bytes) (nonce : bytes) (mac_len : Z) : M cipher :=
  match nonce with
  | [] => raise (ValueError "Nonce cannot be empty")
  | _ =>
      match k with
      | None => raise (TypeError "'NoneType' object is not subscriptable")
      | Some kb =>
          if negb ((4 <=? mac_len) && (mac_len <=? 16)) then
            raise (ValueError "Parameter 'mac_len' must be in the range 4..16")
          else if negb ((blen kb =? 16) || (blen kb =? 24) || (blen kb =? 32)) then
            raise (ValueError ("Incorrect AES key length (" +:+ pretty (blen kb)
                                 +:+ " bytes)"))
          else
            emit (AesGcmNew kb nonce mac_len);;
            mret {| ae_key := kb; ae_nonce := nonce; ae_mac_len := mac_len; ae_aad := [] |}
      end
  end.

(** [AE.update(data)]. *)
Definition AE_update (AE : cipher) (data : bytes) : M cipher :=
  emit (AesUpdate data);;
  mret {| ae_key := ae_key AE; ae_nonce := ae_nonce AE; ae_mac_len := ae_mac_len AE;
          ae_aad := ae_aad AE ++ data |}.

(** [AE.encrypt_and_digest(plaintext)]. *)
Definition AE_encrypt_and_digest (AE : cipher) (plaintext : bytes) : M (bytes * bytes) :=
  emit (AesEncryptAndDigest plaintext);;
  mret (gcm_encrypt_and_digest (ae_key AE) (ae_nonce AE) (ae_mac_len AE) (ae_aad AE) plaintext).

(** [AE.decrypt_and_verify(ciphertext, tag)]. *)
Definition AE_decrypt_and_verify (AE : cipher) (ciphertext tag : bytes) : M bytes :=
  emit (AesDecryptAndVerify ciphertext tag);;
  match gcm_decrypt_and_verify (ae_key AE) (ae_nonce AE) (ae_mac_len AE) (ae_aad AE)
          ciphertext tag with
  | Some plaintext => mret plaintext
  | None => raise (ValueError "MAC check failed")
  end.

(** *** [__init__], lines 12-29

    [selector] is the registration the selector holds for [sock]. *)
Definition __init__ (selector : option Z) (sock0 : socket) (addr0 : string)
    (request0 : gmap string content) : Message :=
  {| sock := Some sock0; addr := addr0; request := request0;
     _recv_buffer := []; _send_buffer := []; _request_queued := false;
     key := None;
     _header_len := 16; _authtag_len := 12;
     _sqn := 0; _rcvsqn := 0;
     registered := selector; sock_closed := false; drawn := 0%nat; log := [] |}.

(** *** [_set_selector_events_mask], lines 31-41 *)
Definition _set_selector_events_mask (mode : string) : M unit :=
  events ←
    (if String.eqb mode "r" then mret EVENT_READ
     else if String.eqb mode "w" then mret EVENT_WRITE
     else if String.eqb mode "rw" then mret (Z.lor EVENT_READ EVENT_WRITE)
     else raise (ValueError ("Invalid events mask mode " +:+ repr_str mode +:+ ".")));
  selector_modify events.

(** *** [_read], lines 43-54

    The [else] branch of the [try] runs when [recv] returned; it is not
    covered by the [except] clause. *)
Definition _read (o : result bytes) : M unit :=
  r ← try_except (data ← sock_recv 4096 o; mret (Some data))
        is_BlockingIOError (fun _ => mret None);
  match r with
  | None => mret tt
  | Some data =>
      match data with
      | _ :: _ => modify (fun m => set_recv_buffer (_recv_buffer m ++ data) m)
      | [] => raise (RuntimeError "Peer closed.")
      end
  end.

(** *** [_write], lines 56-65 *)
Definition _write (o : result Z) : M unit :=
  buf ← get _send_buffer;
  match buf with
  | [] => mret tt
  | _ :: _ =>
      r ← try_except (sent ← sock_send buf o; mret (Some sent))
            is_BlockingIOError (fun _ => mret None);
      match r with
      | None => mret tt
      | Some sent =>
          modify (fun m => set_send_buffer (slice (Some sent) None (_send_buffer m)) m)
      end
  end.

(** *** [close], lines 158-174 *)
Definition close : M unit :=
  a ← get addr;
  print ("Closing connection to " +:+ a);;
  try_except selector_unregister is_Exception
    (fun e => print ("Error: selector.unregister() exception for " +:+ a +:+ ": " +:+ repr e));;
  try_finally
    (try_except sock_close is_OSError
       (fun e => print ("Error: socket.close() exception for " +:+ a +:+ ": " +:+ repr e)))
    (modify (set_sock None)).

(** *** [_create_message], lines 67-130

    The names the body assigns.  [len] is one of them (line 99), so
    every use of [len] in the body reads the local. *)
Definition co__create_message : code :=
  {| co_varnames :=
       {[ "self"; "action"; "value"; "msg_length"; "_typ"; "payload_length";
          "ver"; "typ"; "len"; "sqn"; "rnd"; "rsv"; "header"; "nonce"; "AE";
          "encrypted_payload"; "authtag"; "msg"; "inf"; "server_key";
          "pubkey"; "RSAcipher"; "etk" ]} |}.

(** Lines 115-126: the wrapped session key of a login frame. *)
Definition wrap_session_key : M bytes :=
  emit (OpenFile "pubkey.pem");;
  match pubkey_pem with
  | None => raise (FileNotFoundError "pubkey.pem")
  | Some server_key =>
      match rsa_import_key server_key with
      | None => raise (ValueError "RSA key format is not supported")
      | Some pk =>
          k ← get key;
          match k with
          | None => raise (TypeError "object of type 'NoneType' has no len()")
          | Some kb =>
              emit (RsaOaepEncrypt kb);;
              lift (oaep_encrypt pk kb)
          end
      end
  end.

Definition _create_message (action : string) (value : bytes) : M bytes :=
  let co := co__create_message in
  let f : frame := ∅ in
  let msg_length := 0 in
  let _typ : bytes := [] in
  '(msg_length, _typ) ←
    (if String.eqb action "login" then
       k ← get_random_bytes 32;
       modify (set_key (Some k));;
       mret (msg_length + 256, [Byte.x00; Byte.x00])
     else mret (msg_length, _typ));
  (* line 80: payload_length = len(value) *)
  len_ ← lift (load co f "len");
  payload_length ← lift (call len_ (VBytes value));
  hl ← get _header_len;
  al ← get _authtag_len;
  let msg_length := msg_length + (hl + payload_length + al) in
  let ver := [Byte.x01; Byte.x00] in
  let typ := _typ in
  (* line 99: len = msg_length.to_bytes(2, byteorder='big') *)
  len_b ← lift (to_bytes2 msg_length);
  let f := <["len" := VBytes len_b]> f in
  sq ← get _sqn;
  sqn ← lift (to_bytes2 (sq + 1));
  rnd ← get_random_bytes 6;
  let rsv := [Byte.x00; Byte.x00] in
  (* line 104: header = ver + typ + len + sqn + rnd + rsv *)
  len_v ← lift (load co f "len" ≫= as_bytes);
  let header := ver ++ typ ++ len_v ++ sqn ++ rnd ++ rsv in
  let nonce := sqn ++ rnd in
  k ← get key;
  AE ← AES_new k nonce al;
  AE ← AE_update AE header;
  '(encrypted_payload, authtag) ← AE_encrypt_and_digest AE value;
  let msg := header ++ encrypted_payload ++ authtag in
  msg ←
    (if String.eqb action "login" then
       etk ← wrap_session_key;
       mret (msg ++ etk)
     else mret msg);
  modify (fun m => set_sqn (_sqn m + 1) m);;
  mret msg.

(** *** [queue_request], lines 176-181 *)
Definition queue_request : M unit :=
  rq ← get request;
  match rq !! "content" with
  | None => raise (KeyError "content")
  | Some c =>
      message ← _create_message (action c) (value c);
      modify (fun m => set_send_buffer (_send_buffer m ++ message) m);;
      modify (set_request_queued true)
  end.

(** *** [process_response], lines 183-229 *)
Definition co_process_response : code :=
  {| co_varnames :=
       {[ "self"; "msg"; "header"; "authtag"; "encrypted_payload"; "ver";
          "typ"; "len"; "sqn"; "rnd"; "rsv"; "msg_len"; "sndsqn"; "nonce";
          "AE"; "payload"; "e" ]} |}.

(** Lines 184-194: the fields of the message. *)
Record fields := {
  f_msg : bytes;
  f_header : bytes;
  f_authtag : bytes;
  f_encrypted_payload : bytes;
  f_ver : bytes;
  f_typ : bytes;
  f_sqn : bytes;
  f_rnd : bytes;
  f_rsv : bytes
}.

Definition parse (msg : bytes) : fields * frame :=
  let header := slice (Some 0) (Some 16) msg in
  let authtag := slice (Some (-12)) None msg in
  let encrypted_payload := slice (Some 16) (Some (-12)) msg in
  let ver := slice (Some 0) (Some 2) header in
  let typ := slice (Some 2) (Some 4) header in
  (* line 191: len = header[4:6] *)
  let f : frame := <["len" := VBytes (slice (Some 4) (Some 6) header)]> ∅ in
  let sqn := slice (Some 6) (Some 8) header in
  let rnd := slice (Some 8) (Some 14) header in
  let rsv := slice (Some 14) (Some 16) header in
  ({| f_msg := msg; f_header := header; f_authtag := authtag;
      f_encrypted_payload := encrypted_payload; f_ver := ver; f_typ := typ;
      f_sqn := sqn; f_rnd := rnd; f_rsv := rsv |}, f).

(** Lines 196-200: check the msg length; gives [msg_len]. *)
Definition check_length (p : fields) (f : frame) : M Z :=
  let co := co_process_response in
  (* line 197: msg_len = len(msg) *)
  len_ ← lift (load co f "len");
  msg_len ← lift (call len_ (VBytes (f_msg p)));
  len_v ← lift (load co f "len" ≫= as_bytes);
  (if negb (msg_len =? from_bytes len_v) then
     print "Warning: Message length value in header is wrong!";;
     close
   else mret tt);;
  mret msg_len.

(** Lines 202-209: check the sequence number. *)
Definition check_sequence (p : fields) : M unit :=
  rs ← get _rcvsqn;
  print ("Expecting sequence number " +:+ pretty (rs + 1) +:+ " or larger...");;
  let sndsqn := from_bytes (f_sqn p) in
  (if sndsqn <=? rs then
     print "Error: Message sequence number is too old!";;
     print "Processing completed.";;
     close
   else mret tt);;
  print "Sequence number verification is successful.".

(** Lines 211-222: verify and decrypt the encrypted payload.  The name
    [payload] is bound only when [decrypt_and_verify] returns. *)
Definition verify_and_decrypt (p : fields) (f : frame) : M frame :=
  print "Decryption and authentication tag verification is attempted...";;
  let nonce := f_sqn p ++ f_rnd p in
  k ← get key;
  AE ← AES_new k nonce 12;
  AE ← AE_update AE (f_header p);
  f ← try_except
        (payload ← AE_decrypt_and_verify AE (f_encrypted_payload p) (f_authtag p);
         mret (<["payload" := VBytes payload]> f))
        is_Exception
        (fun e =>
           print "Error: Operation failed!";;
           print "Processing completed.";;
           close;;
           mret f);
  print "Operation was successful: message is intact, content is decrypted.";;
  mret f.

(** Lines 224-229: advance the receive counter, consume the message,
    print the payload. *)
Definition commit (msg_len : Z) (f : frame) : M unit :=
  modify (fun m => set_rcvsqn (_rcvsqn m + 1) m);;
  modify (fun m => set_recv_buffer (slice (Some msg_len) None (_recv_buffer m)) m);;
  payload ← lift (load co_process_response f "payload");
  match payload with
  | VBytes b => emit (StdoutBytes b)
  | VNone => print "None"
  | VInt n => print (pretty n)
  | VBuiltin Blen => print "<built-in function len>"
  end.

Definition process_response : M unit :=
  msg ← get _recv_buffer;
  emit (Enter msg);;
  let '(p, f) := parse msg in
  msg_len ← check_length p f;
  check_sequence p;;
  f ← verify_and_decrypt p f;
  commit msg_len f.

(** *** [read], lines 138-145 *)
Definition read (o : result bytes) : M unit :=
  _read o;;
  process_response;;
  buf ← get _recv_buffer;
  match buf with
  | [] => _set_selector_events_mask "w"
  | _ :: _ => mret tt
  end.

(** *** [write], lines 147-156 *)
Definition write (o : result Z) : M unit :=
  queued ← get _request_queued;
  (if negb queued then queue_request else mret tt);;
  _write o;;
  queued ← get _request_queued;
  buf ← get _send_buffer;
  match queued, buf with
  | true, [] => _set_selector_events_mask "r"
  | _, _ => mret tt
  end.

(** *** [process_events], lines 132-136 *)
Definition process_events (mask : Z) (recv_o : result bytes) (send_o : result Z) : M unit :=
  (if negb (Z.land mask EVENT_READ =? 0) then read recv_o else mret tt);;
  (if negb (Z.land mask EVENT_WRITE =? 0) then write send_o else mret tt).

End Methods.

(** ** Sample data

    One instance of the environment, so that the methods can be run on
    concrete inputs: a checksum stands for the tag and the identity for
    both ciphers. *)

Definition checksum (parts : list bytes) : byte :=
  byte_of_Z (fold_left (fun acc b => acc + Z_of_byte b) (concat parts) 0).

Definition sample_tag (k nonce : bytes) (mac_len : Z) (aad ct : bytes) : bytes :=
  replicate (Z.to_nat mac_len) (checksum [k; nonce; aad; ct]).

Fixpoint bytes_eqb (a b : bytes) : bool :=
  match a, b with
  | [], [] => true
  | x :: a', y :: b' => Byte.eqb x y && bytes_eqb a' b'
  | _, _ => false
  end.

Definition sample_env : Env :=
  {| gcm_encrypt_and_digest := fun k nonce mac_len aad pt =>
       (pt, sample_tag k nonce mac_len aad pt);
     gcm_decrypt_and_verify := fun k nonce mac_len aad ct tag =>
       if bytes_eqb tag (sample_tag k nonce mac_len aad ct) then Some ct else None;
     pubkey := bytes;
     rsa_import_key := Some;
     oaep_encrypt := fun pk message => Ok (message ++ replicate 224 Byte.x00);
     urandom := fun i => byte_of_Z (Z.of_nat i);
     pubkey_pem := Some [];
     sock_close_error := None |}.

(** A connection as the client opens it: registered for writing, with a
    login request to send. *)
Definition sample_message : Message :=
  __init__ (Some EVENT_WRITE) (Socket 3) "127.0.0.1:65432"
    {[ "content" := {| action := "login"; value := [] |} ]}.

Definition sample_key : bytes := replicate 32 Byte.x2a.

(** The plaintext [b"hi"]. *)
Definition hi : bytes := [Byte.x68; Byte.x69].

(** The frame the wire format prescribes for [payload] with sequence
    number [sqn] and the salt [aa aa aa aa aa aa]: the 16 bytes of the
    header, the ciphertext and the 12 bytes of the tag. *)
Definition sample_header (sqn : Z) (payload : bytes) : bytes :=
  [Byte.x01; Byte.x00] ++ [Byte.x00; Byte.x01] ++ be16 (16 + blen payload + 12)
    ++ be16 sqn ++ replicate 6 Byte.xaa ++ [Byte.x00; Byte.x00].

Definition sample_frame (sqn : Z) (payload : bytes) : bytes :=
  let header := sample_header sqn payload in
  let nonce := be16 sqn ++ replicate 6 Byte.xaa in
  let '(ct, tag) :=
    @gcm_encrypt_and_digest sample_env sample_key nonce 12 header payload in
  header ++ ct ++ tag.

(** A session in which [n] frames have been received, with [buf]
    waiting in the inbound buffer. *)
Definition established (n : Z) (buf : bytes) : Message :=
  set_recv_buffer buf (set_rcvsqn n (set_key (Some sample_key) sample_message)).

(** Six bytes of a frame that declares 32: the version, the type and
    the length field. *)
Definition partial_frame : bytes :=
  [Byte.x01; Byte.x00; Byte.x00; Byte.x01; Byte.x00; Byte.x20].

(** A connection whose request has been queued, with [buf] waiting in
    the outbound buffer. *)
Definition queued (buf : bytes) : Message :=
  set_request_queued true (set_send_buffer buf sample_message).


(** ** Vocabulary of the statements *)

Definition not_callable : exn := TypeError "'bytes' object is not callable".

(** The length a message declares: bytes 4 and 5 of its header, read as
    line 191 and line 198 read them. *)
Definition declared_length (msg : bytes) : Z :=
  from_bytes (slice (Some 4) (Some 6) (slice (Some 0) (Some 16) msg)).

Definition is_crypto (e : event) : bool :=
  match e with
  | AesGcmNew _ _ _ | AesUpdate _ | AesEncryptAndDigest _
  | AesDecryptAndVerify _ _ | RsaOaepEncrypt _ => true
  | _ => false
  end.

Definition is_teardown (e : event) : bool :=
  match e with
  | SelectorUnregister | SocketClose => true
  | _ => false
  end.

Definition is_payload (e : event) : bool :=
  match e with
  | StdoutBytes _ => true
  | _ => false
  end.

(** What a receive adds to the inbound buffer when [_read] returns. *)
Definition received (o : result bytes) : option bytes :=
  match o with
  | Ok (x :: data) => Some (x :: data)
  | Raise BlockingIOError => Some []
  | _ => None
  end.





Section Vocabulary.

Context {E : Env}.

(** What the login branch has done to the object by line 80. *)
Definition keyed (action : string) (m : Message) : Message :=
  if String.eqb action "login" then
    set_key (Some (map urandom (seq (drawn m) 32))) (set_drawn (drawn m + 32)%nat m)
  else m.

(** C8 as the specification states it: whenever [read] starts
    [process_response], the buffer holds at least the length it
    declares. *)
Definition handed_over_only_when_complete : Prop :=
  forall (o : result bytes) (m : Message) (buf : bytes),
    log m = [] ->
    In (Enter buf) (log (snd (read o m))) ->
    declared_length buf <= blen buf.

(** C9 as the specification states it: after a zero-length read the
    connection is deregistered, the socket closed and the partial
    buffer discarded. *)
Definition zero_read_tears_down : Prop :=
  forall (m : Message) (s : socket),
    sock m = Some s ->
    let m' := snd (read (Ok []) m) in
    registered m' = None /\ sock_closed m' = true /\ _recv_buffer m' = [].




End Vocabulary.

(** ** Proof steps *)

(** Unfold the command layer. *)
Ltac unfold_run :=
  unfold mbind, M_bind, bind, mret, M_ret, ret, get, print, emit, modify, raise,
    lift, try_except, try_finally.

(** Compute the projections of an updated object. *)
Ltac proj_fields :=
  cbn [fst snd sock addr request _recv_buffer _send_buffer _request_queued key
       _header_len _authtag_len _sqn _rcvsqn registered sock_closed drawn log
       set_sock set_recv_buffer set_send_buffer set_request_queued set_key
       set_sqn set_rcvsqn set_registered set_sock_closed set_drawn set_log].

(** Evaluate the closed [Z.to_nat] terms of the goal. *)
Ltac eval_to_nat :=
  repeat match goal with
  | |- context [Z.to_nat ?z] =>
      let v := eval vm_compute in (Z.to_nat z) in
      change (Z.to_nat z) with v
  end.

(** ** The two codec methods stop at their first use of [len] *)

Section Raises.

Context {E : Env}.

Lemma len_local_in__create_message :
  bool_decide ("len" ∈ co_varnames co__create_message) = true.
Proof. by vm_compute. Qed.

Lemma len_local_in_process_response :
  bool_decide ("len" ∈ co_varnames co_process_response) = true.
Proof. by vm_compute. Qed.

(** Line 80 reads [len] before line 99 has bound it. *)
Lemma load_len_before_assignment :
  load co__create_message ∅ "len" = Raise (UnboundLocalError "len").
Proof.
  unfold load. rewrite len_local_in__create_message.
  by rewrite lookup_empty.
Qed.

(** Line 197 reads [len] after line 191 has bound it to a slice. *)
Lemma load_len_after_parse (msg : bytes) :
  load co_process_response (snd (parse msg)) "len"
  = Ok (VBytes (slice (Some 4) (Some 6) (slice (Some 0) (Some 16) msg))).
Proof.
  unfold load. rewrite len_local_in_process_response.
  cbn [parse snd]. by rewrite lookup_insert_eq.
Qed.

Lemma _create_message_raises (action : string) (value : bytes) (m : Message) :
  _create_message action value m = (Raise (UnboundLocalError "len"), keyed action m).
Proof.
  unfold _create_message, keyed.
  unfold mbind, M_bind, bind.
  destruct (String.eqb action "login"); cbn;
    unfold lift; rewrite load_len_before_assignment; reflexivity.
Qed.

Lemma queue_request_raises (c : content) (m : Message) :
  request m !! "content" = Some c ->
  queue_request m = (Raise (UnboundLocalError "len"), keyed (action c) m).
Proof.
  intros Hc. unfold queue_request, mbind, M_bind, bind, get.
  rewrite Hc. by rewrite _create_message_raises.
Qed.

Lemma check_length_raises (msg : bytes) (m : Message) :
  check_length (fst (parse msg)) (snd (parse msg)) m = (Raise not_callable, m).
Proof.
  unfold check_length, mbind, M_bind, bind, lift.
  rewrite load_len_after_parse. reflexivity.
Qed.

Lemma process_response_raises (m : Message) :
  process_response m
  = (Raise not_callable, set_log (log m ++ [Enter (_recv_buffer m)]) m).
Proof.
  unfold process_response, mbind, M_bind, bind, get, emit, modify.
  destruct (parse (_recv_buffer m)) as [p f] eqn:Hp.
  change p with (fst (p, f)). change f with (snd (p, f)) at 2.
  rewrite <- Hp. rewrite check_length_raises. reflexivity.
Qed.

End Raises.

(** ** The socket side *)

Section Reading.

Context {E : Env}.

Lemma _read_data (m : Message) (s : socket) (x : byte) (data : bytes) :
  sock m = Some s ->
  _read (Ok (x :: data)) m
  = (Ok tt,
     set_recv_buffer (_recv_buffer m ++ x :: data)
       (set_log (log m ++ [SocketRecv 4096]) m)).
Proof.
  intros Hs. unfold _read, try_except, sock_recv, mbind, M_bind, bind, get.
  rewrite Hs. reflexivity.
Qed.

Lemma _read_would_block (m : Message) (s : socket) :
  sock m = Some s ->
  _read (Raise BlockingIOError) m = (Ok tt, set_log (log m ++ [SocketRecv 4096]) m).
Proof.
  intros Hs. unfold _read, try_except, sock_recv, mbind, M_bind, bind, get.
  rewrite Hs. reflexivity.
Qed.

Lemma _read_peer_closed (m : Message) (s : socket) :
  sock m = Some s ->
  _read (Ok []) m
  = (Raise (RuntimeError "Peer closed."), set_log (log m ++ [SocketRecv 4096]) m).
Proof.
  intros Hs. unfold _read, try_except, sock_recv, mbind, M_bind, bind, get.
  rewrite Hs. reflexivity.
Qed.

Lemma read_enters (m : Message) (s : socket) (o : result bytes) (d : bytes) :
  sock m = Some s ->
  received o = Some d ->
  log (snd (read o m)) = log m ++ [SocketRecv 4096; Enter (_recv_buffer m ++ d)].
Proof.
  intros Hs Hr. unfold read, mbind, M_bind, bind.
  destruct o as [[|x data]|[]]; simpl in Hr; try discriminate;
    injection Hr as <-.
  - rewrite (_read_data m s x data Hs), process_response_raises.
    cbn. by rewrite <- app_assoc.
  - rewrite (_read_would_block m s Hs), process_response_raises.
    cbn. by rewrite app_nil_r, <- app_assoc.
Qed.

Lemma read_peer_closed (m : Message) (s : socket) :
  sock m = Some s ->
  read (Ok []) m
  = (Raise (RuntimeError "Peer closed."), set_log (log m ++ [SocketRecv 4096]) m).
Proof.
  intros Hs. unfold read, mbind, M_bind, bind.
  by rewrite (_read_peer_closed m s Hs).
Qed.

End Reading.

(** ** Beyond the length check

    What the later blocks of [process_response] do when they are run on
    their own.  No call of [process_response] gets that far. *)

Section Later_blocks.

Context {E : Env}.

(** After a stale sequence number the block closes the connection and
    goes on: it returns to the statements that follow. *)
Lemma check_sequence_goes_on :
  let m := established 3 (sample_frame 3 hi) in
  let r := check_sequence (fst (parse (_recv_buffer m))) m in
  fst r = Ok tt /\ sock (snd r) = None /\ registered (snd r) = None.
Proof.
  cbn zeta. unfold check_sequence, close, selector_unregister, sock_close.
  destruct E as [? ? ? ? ? ? ? [msg|]]; vm_compute; auto.
Qed.

(** The receive counter is advanced by one, whatever sequence number
    the message carried. *)
Lemma commit_adds_one (msg_len : Z) (f : frame) (m : Message) :
  _rcvsqn (snd (commit msg_len f m)) = _rcvsqn m + 1.
Proof.
  unfold commit, mbind, M_bind, bind, modify, lift. cbn.
  destruct (load co_process_response f "payload") as [[| | |[]]|]; reflexivity.
Qed.

End Later_blocks.

(** ** The receive counter in a run *)

Section Runs.

Context {E : Env}.
























End Runs.

(** ** The properties of the specification *)

Section Claims.

Context {E : Env}.

(** C1.  The round trip [decode(encode(P, K, seq), K, seq-1) == P] does
    not hold of the code: for the plaintext [b"hi"] on a fresh
    connection [_create_message] raises [UnboundLocalError] at line 80
    and returns no frame, and [process_response] returns no plaintext
    for any buffer, key or receive counter. *)
Theorem C1_no_round_trip :
  fst (_create_message "login" hi sample_message) = Raise (UnboundLocalError "len")
  /\ (forall frame, fst (_create_message "login" hi sample_message) <> Ok frame)
  /\ (forall (m : Message), fst (process_response m) = Raise not_callable)
  /\ (forall (m : Message),
        filter is_payload (log (snd (process_response m))) = filter is_payload (log m)).
Proof.
  rewrite _create_message_raises.
  split; [reflexivity|]. split; [|split].
  - intros frame. discriminate.
  - intros m. by rewrite process_response_raises.
  - intros m. rewrite process_response_raises. cbn.
    by rewrite filter_app, app_nil_r.
Qed.

(** C2.  A frame with one byte replaced is not rejected by the tag
    verification: whatever the position [i] and the new byte [b],
    [process_response] raises [TypeError] at line 197, runs no AES
    operation and leaves the connection registered and open. *)
Theorem C2_tampering_never_reaches_the_tag (i : nat) (b : byte) :
  let m := established 0 (<[i := b]> (sample_frame 1 hi)) in
  let r := process_response m in
  fst r = Raise not_callable
  /\ filter is_crypto (log (snd r)) = []
  /\ filter is_teardown (log (snd r)) = []
  /\ registered (snd r) = Some EVENT_WRITE
  /\ sock (snd r) = Some (Socket 3).
Proof.
  cbn zeta. rewrite process_response_raises. cbn. auto.
Qed.

(** C3.  No login frame is produced whose length field could be
    compared with its length: for the empty payload [_create_message]
    raises at line 80, before line 99 encodes the length, and
    [queue_request] leaves the outbound buffer empty. *)
Theorem C3_no_login_frame :
  fst (_create_message "login" [] sample_message) = Raise (UnboundLocalError "len")
  /\ (forall frame, fst (_create_message "login" [] sample_message) <> Ok frame)
  /\ fst (queue_request sample_message) = Raise (UnboundLocalError "len")
  /\ _send_buffer (snd (queue_request sample_message)) = [].
Proof.
  rewrite (queue_request_raises {| action := "login"; value := [] |})
    by apply lookup_singleton_eq.
  rewrite _create_message_raises.
  split; [reflexivity|]. split; [|split; reflexivity].
  intros frame. discriminate.
Qed.

(** C4.  The send counter starts at 0, and the first call of
    [_create_message] leaves it at 0: the call raises at line 80, so
    neither line 100 embeds the value 1 nor line 128 increments the
    counter. *)
Theorem C4_send_counter_not_advanced (action : string) (value : bytes) :
  _sqn sample_message = 0
  /\ fst (_create_message action value sample_message) = Raise (UnboundLocalError "len")
  /\ _sqn (snd (_create_message action value sample_message)) = 0.
Proof.
  rewrite _create_message_raises. repeat split.
  unfold keyed. by destruct (String.eqb action "login").
Qed.


(** C6.  A message whose length field is wrong is not told apart from
    one whose length field is right: with the field set to 0 on a
    30-byte frame, [process_response] raises [TypeError] at line 197,
    before the comparison of line 198, and prints no warning; the frame
    with the right field ends the same way. *)
Theorem C6_length_mismatch_not_detected :
  let bad := <[5%nat := Byte.x00]> (sample_frame 1 hi) in
  let r := process_response (established 0 bad) in
  let r' := process_response (established 0 (sample_frame 1 hi)) in
  declared_length bad = 0
  /\ blen bad = 30
  /\ fst r = Raise not_callable
  /\ log (snd r) = [Enter bad]
  /\ declared_length (sample_frame 1 hi) = blen (sample_frame 1 hi)
  /\ fst r' = Raise not_callable.
Proof.
  cbn zeta. rewrite !process_response_raises. cbn.
  repeat split; by vm_compute.
Qed.

(** C7.  A decode error does not tear the connection down: on a frame
    with a stale sequence number and a wrong first byte,
    [process_response] raises [TypeError] without calling [close]; the
    socket stays registered and open.  (The receive counter and the
    inbound buffer are unchanged, as the claim says.) *)
Theorem C7_error_without_teardown :
  let bad := <[0%nat := Byte.xff]> (sample_frame 2 hi) in
  let m := established 2 bad in
  let r := process_response m in
  fst r = Raise not_callable
  /\ registered (snd r) = Some EVENT_WRITE
  /\ sock (snd r) = Some (Socket 3)
  /\ sock_closed (snd r) = false
  /\ filter is_teardown (log (snd r)) = []
  /\ _rcvsqn (snd r) = _rcvsqn m
  /\ _recv_buffer (snd r) = _recv_buffer m.
Proof.
  cbn zeta. rewrite process_response_raises. cbn. auto 10.
Qed.

(** C8, amended.  On every read-ready notification whose receive
    returns data or would block, [read] starts [process_response] on
    the inbound buffer as it stands after the receive, the bytes
    received so far followed by the new ones, whether or not a whole
    frame is there. *)
Theorem C8_read_hands_over_at_once (m : Message) (s : socket)
    (o : result bytes) (d : bytes) :
  sock m = Some s ->
  received o = Some d ->
  In (Enter (_recv_buffer m ++ d)) (log (snd (read o m))).
Proof.
  intros Hs Hr. rewrite (read_enters m s o d Hs Hr).
  apply in_or_app. right. right. by left.
Qed.

(** C9, amended.  Whenever the receive returns no data, [read] raises
    [RuntimeError("Peer closed.")] to its caller without starting
    [process_response]; it leaves the registration, the socket and the
    inbound buffer as they were. *)
Theorem C9_zero_read_raises_to_caller (m : Message) (s : socket) :
  sock m = Some s ->
  let r := read (Ok []) m in
  fst r = Raise (RuntimeError "Peer closed.")
  /\ log (snd r) = log m ++ [SocketRecv 4096]
  /\ registered (snd r) = registered m
  /\ sock (snd r) = sock m
  /\ sock_closed (snd r) = sock_closed m
  /\ _recv_buffer (snd r) = _recv_buffer m.
Proof.
  intros Hs. cbn zeta. rewrite (read_peer_closed m s Hs). cbn. auto 10.
Qed.

(** C10.  In [process_response] the name [len] is bound to the length
    slice of the header when line 197 calls it, so for every object,
    whatever its buffer, the call raises [TypeError]; the object is
    left as it was, the log gaining only the entry of the call, and no
    payload is printed. *)
Theorem C10_process_response_always_raises (m : Message) :
  load co_process_response (snd (parse (_recv_buffer m))) "len"
  = Ok (VBytes (slice (Some 4) (Some 6) (slice (Some 0) (Some 16) (_recv_buffer m))))
  /\ fst (process_response m) = Raise not_callable
  /\ snd (process_response m) = set_log (log m ++ [Enter (_recv_buffer m)]) m
  /\ filter is_payload (log (snd (process_response m))) = filter is_payload (log m).
Proof.
  rewrite load_len_after_parse, process_response_raises. cbn.
  repeat split. by rewrite filter_app, app_nil_r.
Qed.

End Claims.

(** ** Concrete runs *)

(** C8, as stated, fails: on a fresh connection a receive of the six
    bytes of [partial_frame] makes [read] start [process_response] on a
    buffer of 6 bytes that declares 32. *)
Lemma C8_partial_frame_is_handed_over :
  ~ @handed_over_only_when_complete sample_env.
Proof.
  intros Hc.
  assert (Hle : declared_length partial_frame <= blen partial_frame).
  { apply (Hc (Ok partial_frame) sample_message); [reflexivity|].
    vm_compute. right. by left. }
  vm_compute in Hle. by apply Hle.
Qed.

(** C8, amended, at the same input. *)
Lemma C8_read_hands_over_at_once_witness :
  sock sample_message = Some (Socket 3)
  /\ received (Ok partial_frame) = Some partial_frame
  /\ In (Enter (_recv_buffer sample_message ++ partial_frame))
        (log (snd (@read sample_env (Ok partial_frame) sample_message))).
Proof.
  split; [reflexivity|]. split; [reflexivity|].
  apply (@C8_read_hands_over_at_once sample_env sample_message (Socket 3));
    reflexivity.
Defined.

(** C9, as stated, fails: with two bytes of a frame in the buffer, a
    zero-length read leaves the socket registered and open and the two
    bytes in the buffer. *)
Lemma C9_zero_read_leaves_connection :
  ~ @zero_read_tears_down sample_env.
Proof.
  intros Hc.
  destruct (Hc (established 0 [Byte.x01; Byte.x00]) (Socket 3) eq_refl) as [Hr _].
  vm_compute in Hr. discriminate Hr.
Qed.

(** C9, amended, at the same input. *)
Lemma C9_zero_read_raises_to_caller_witness :
  let m := established 0 [Byte.x01; Byte.x00] in
  sock m = Some (Socket 3)
  /\ fst (@read sample_env (Ok []) m) = Raise (RuntimeError "Peer closed.")
  /\ _recv_buffer (snd (@read sample_env (Ok []) m)) = [Byte.x01; Byte.x00].
Proof.
  cbn zeta. split; [reflexivity|].
  destruct (@C9_zero_read_raises_to_caller sample_env
              (established 0 [Byte.x01; Byte.x00]) (Socket 3) eq_refl)
    as (Hr & _ & _ & _ & _ & Hb).
  split; [exact Hr | exact Hb].
Defined.

(** ** Further properties of the methods *)

(** *** Integers and slices *)

Lemma Z_of_byte_of_Z (z : Z) : 0 <= z < 256 -> Z_of_byte (byte_of_Z z) = z.
Proof.
  intros Hz. unfold Z_of_byte, byte_of_Z.
  rewrite Z.mod_small by lia.
  destruct (Byte.of_N (Z.to_N z)) as [b|] eqn:Hb.
  - cbn. apply Byte.to_of_N in Hb. rewrite Hb. lia.
  - apply Byte.of_N_None_iff in Hb. lia.
Qed.

Lemma Z_of_byte_mod (z : Z) : Z_of_byte (byte_of_Z z) = z mod 256.
Proof.
  unfold Z_of_byte, byte_of_Z.
  pose proof (Z.mod_pos_bound z 256 ltac:(lia)) as Hm.
  destruct (Byte.of_N (Z.to_N (z mod 256))) as [b|] eqn:Hb.
  - cbn. apply Byte.to_of_N in Hb. rewrite Hb. lia.
  - apply Byte.of_N_None_iff in Hb. lia.
Qed.

Lemma from_bytes_be16 (n : Z) : 0 <= n < 65536 -> from_bytes (be16 n) = n.
Proof.
  intros Hn. unfold from_bytes, be16, fold_left.
  rewrite (Z_of_byte_mod n), (Z_of_byte_of_Z (n / 256)).
  - pose proof (Z.div_mod n 256 ltac:(lia)). lia.
  - split; [apply Z.div_pos; lia | apply Z.div_lt_upper_bound; lia].
Qed.

Lemma slice_between (a b : Z) (s : bytes) :
  0 <= a <= b ->
  slice (Some a) (Some b) s = take (Z.to_nat (b - a)) (drop (Z.to_nat a) s).
Proof.
  intros Hab. unfold slice, clamp, blen. cbn.
  destruct (Z.ltb_spec a 0), (Z.ltb_spec b 0); try lia.
  destruct (Z_le_gt_dec a (Z.of_nat (length s))) as [Ha|Ha].
  - rewrite (Z.min_l a) by lia.
    destruct (Z_le_gt_dec b (Z.of_nat (length s))) as [Hb|Hb].
    + by rewrite (Z.min_l b) by lia.
    + rewrite (Z.min_r b) by lia.
      rewrite !take_ge; [done| |]; rewrite length_drop; lia.
  - rewrite (Z.min_r a), (Z.min_r b) by lia.
    rewrite !drop_ge by lia. by rewrite !take_nil.
Qed.

Lemma slice_from (a : Z) (s : bytes) :
  0 <= a -> slice (Some a) None s = drop (Z.to_nat a) s.
Proof.
  intros Ha. unfold slice, clamp, blen. cbn.
  destruct (Z.ltb_spec a 0); try lia.
  destruct (Z_le_gt_dec a (Z.of_nat (length s))) as [Hl|Hl].
  - rewrite Z.min_l by lia. apply take_ge. rewrite length_drop. lia.
  - rewrite Z.min_r by lia. rewrite !drop_ge by lia. by rewrite take_nil.
Qed.

Lemma slice_last (k : Z) (s : bytes) :
  0 < k -> slice (Some (- k)) None s = drop (length s - Z.to_nat k) s.
Proof.
  intros Hk. unfold slice, clamp, blen. cbn.
  destruct (Z.ltb_spec (- k) 0); try lia.
  rewrite take_ge.
  - f_equal. lia.
  - rewrite length_drop. lia.
Qed.

Lemma slice_body (a k : Z) (s : bytes) :
  0 <= a -> 0 < k ->
  slice (Some a) (Some (- k)) s
  = take (length s - Z.to_nat k - Z.to_nat a) (drop (Z.to_nat a) s).
Proof.
  intros Ha Hk. unfold slice, clamp, blen. cbn.
  destruct (Z.ltb_spec (- k) 0), (Z.ltb_spec a 0); try lia.
  destruct (Z_le_gt_dec a (Z.of_nat (length s))) as [Hl|Hl].
  - rewrite Z.min_l by lia. f_equal. lia.
  - rewrite Z.min_r by lia. rewrite !drop_ge by lia. by rewrite !take_nil.
Qed.

(** X1.  The two-byte big-endian encoding of the length and sequence
    fields (lines 99-100) is read back by [int.from_bytes] (lines 198
    and 204): every value from 0 to 65535 is encoded on exactly two
    bytes and decoded to itself. *)
Theorem field_round_trip (n : Z) :
  0 <= n < 65536 ->
  exists b, to_bytes2 n = Ok b /\ blen b = 2 /\ from_bytes b = n.
Proof.
  intros Hn. exists (be16 n). unfold to_bytes2.
  destruct (Z.ltb_spec n 0); [lia|].
  destruct (Z.leb_spec 65536 n); [lia|].
  split; [reflexivity|]. split; [reflexivity|]. by apply from_bytes_be16.
Qed.

(** X2.  For a message of at least 28 bytes the three slices of lines
    186-188 partition it: a 16-byte header, the payload and a 12-byte
    tag, which put together give the message back. *)
Theorem parse_partitions (msg : bytes) :
  28 <= blen msg ->
  let p := fst (parse msg) in
  f_header p ++ f_encrypted_payload p ++ f_authtag p = msg
  /\ blen (f_header p) = 16
  /\ blen (f_encrypted_payload p) = blen msg - 28
  /\ blen (f_authtag p) = 12.
Proof.
  unfold blen. intros Hn. cbn [parse fst f_header f_encrypted_payload f_authtag].
  change (-12) with (Z.opp 12).
  rewrite slice_between, slice_body, slice_last by lia.
  eval_to_nat. rewrite drop_0.
  split; [|rewrite !length_take, !length_drop; repeat split; lia].
  replace (drop (length msg - 12) msg)
    with (drop (length msg - 12 - 16) (drop 16 msg))
    by (rewrite drop_drop; f_equal; lia).
  by rewrite !take_drop.
Qed.

(** X3.  For every message, however short, the six header fields of
    lines 189-194 (the length field being the value bound to [len])
    put together give the header slice back. *)
Theorem parse_header_fields (msg : bytes) :
  let p := fst (parse msg) in
  exists l,
    snd (parse msg) !! "len" = Some (VBytes l)
    /\ f_ver p ++ f_typ p ++ l ++ f_sqn p ++ f_rnd p ++ f_rsv p = f_header p.
Proof.
  cbn [parse fst snd f_ver f_typ f_sqn f_rnd f_rsv f_header].
  eexists. split; [apply lookup_insert_eq|].
  set (h := slice (Some 0) (Some 16) msg).
  assert (Hh : (length h <= 16)%nat).
  { subst h. rewrite slice_between by lia. rewrite length_take. lia. }
  rewrite !slice_between by lia. eval_to_nat. rewrite drop_0.
  replace (drop 14 h) with (drop 6 (drop 8 h)) by (by rewrite drop_drop).
  rewrite (take_ge (drop 6 (drop 8 h))) by (rewrite !length_drop; lia).
  rewrite take_drop.
  replace (drop 8 h) with (drop 2 (drop 6 h)) by (by rewrite drop_drop).
  rewrite take_drop.
  replace (drop 6 h) with (drop 2 (drop 4 h)) by (by rewrite drop_drop).
  rewrite take_drop.
  replace (drop 4 h) with (drop 2 (drop 2 h)) by (by rewrite drop_drop).
  by rewrite !take_drop.
Qed.

(** X4.  A message of at most 12 bytes raises nothing in lines 186-188:
    the header slice and the tag slice are both the whole message and
    the payload slice is empty. *)
Theorem parse_short_message (msg : bytes) :
  blen msg <= 12 ->
  let p := fst (parse msg) in
  f_header p = msg /\ f_authtag p = msg /\ f_encrypted_payload p = [].
Proof.
  unfold blen. intros Hn. cbn [parse fst f_header f_encrypted_payload f_authtag].
  change (-12) with (Z.opp 12).
  rewrite slice_between, slice_body, slice_last by lia.
  split; [|split].
  - cbn. apply take_ge. lia.
  - replace (length msg - Z.to_nat 12)%nat with 0%nat by lia. apply drop_0.
  - replace (length msg - Z.to_nat 12 - Z.to_nat 16)%nat with 0%nat by lia.
    apply take_0.
Qed.

(** *** Receiving *)

Section Socket_side.

Context {E : Env}.

Lemma _read_without_socket (o : result bytes) (m : Message) :
  sock m = None ->
  _read o m = (Raise (AttributeError "'NoneType' object has no attribute 'recv'"), m).
Proof.
  intros Hs. unfold _read, sock_recv. unfold_run. by rewrite Hs.
Qed.

Lemma _read_error (m : Message) (s : socket) (e : exn) :
  sock m = Some s ->
  is_BlockingIOError e = false ->
  _read (Raise e) m = (Raise e, set_log (log m ++ [SocketRecv 4096]) m).
Proof.
  intros Hs He. unfold _read, sock_recv. unfold_run. rewrite Hs. cbn.
  by rewrite He.
Qed.

(** X5.  Two receives that return data leave the inbound buffer with
    the old bytes followed by the first and then the second chunk:
    [_read] only appends. *)
Theorem recv_accumulates (m : Message) (s : socket) (d1 d2 : bytes) :
  sock m = Some s -> d1 <> [] -> d2 <> [] ->
  let r := (_read (Ok d1) ≫= fun _ => _read (Ok d2)) m in
  fst r = Ok tt
  /\ _recv_buffer (snd r) = _recv_buffer m ++ d1 ++ d2.
Proof.
  intros Hs H1 H2. destruct d1 as [|x1 d1]; [done|]. destruct d2 as [|x2 d2]; [done|].
  cbn zeta. unfold mbind, M_bind, bind.
  rewrite (_read_data m s x1 d1 Hs).
  rewrite (_read_data _ s x2 d2) by exact Hs.
  proj_fields. split; [done|]. by rewrite <- app_assoc.
Qed.

(** X6.  When [recv] raises, [_read] swallows a [BlockingIOError] and
    returns, lets every other exception through, and in both cases
    leaves the inbound buffer as it was. *)
Theorem recv_exceptions (m : Message) (s : socket) (e : exn) :
  sock m = Some s ->
  let r := _read (Raise e) m in
  fst r = (if is_BlockingIOError e then Ok tt else Raise e)
  /\ _recv_buffer (snd r) = _recv_buffer m.
Proof.
  intros Hs. cbn zeta. destruct (is_BlockingIOError e) eqn:He.
  - destruct e; try discriminate. by rewrite (_read_would_block m s Hs).
  - by rewrite (_read_error m s e Hs He).
Qed.

(** X7.  [read] never returns: whatever the receive does and whatever
    the object holds, it ends in an exception.  It never changes the
    selector registration (line 145 is not reached), the receive
    counter or the outbound side, and towards the outside it does
    nothing but the one [recv]. *)
Theorem read_always_raises (o : result bytes) (m : Message) :
  let r := read o m in
  (exists e, fst r = Raise e)
  /\ registered (snd r) = registered m
  /\ _rcvsqn (snd r) = _rcvsqn m
  /\ _send_buffer (snd r) = _send_buffer m
  /\ _request_queued (snd r) = _request_queued m
  /\ (forall ev, In ev (log (snd r)) ->
        In ev (log m) \/ ev = SocketRecv 4096 \/ exists buf, ev = Enter buf).
Proof.
  cbn zeta. unfold read. unfold mbind, M_bind, bind.
  destruct (sock m) as [s|] eqn:Hs.
  - destruct o as [[|x d]|e].
    + rewrite (_read_peer_closed m s Hs). cbn. repeat split; eauto.
      intros ev [Hin|[<-|[]]]%in_app_or; auto.
    + rewrite (_read_data m s x d Hs), process_response_raises. cbn.
      repeat split; eauto.
      intros ev [[Hin|[<-|[]]]%in_app_or|[<-|[]]]%in_app_or; eauto.
    + destruct (is_BlockingIOError e) eqn:He.
      * destruct e; try discriminate.
        rewrite (_read_would_block m s Hs), process_response_raises. cbn.
        repeat split; eauto.
        intros ev [[Hin|[<-|[]]]%in_app_or|[<-|[]]]%in_app_or; eauto.
      * rewrite (_read_error m s e Hs He). cbn. repeat split; eauto.
        intros ev [Hin|[<-|[]]]%in_app_or; auto.
  - rewrite (_read_without_socket o m Hs). cbn. repeat split; eauto.
Qed.

End Socket_side.

(** *** Sending *)

Section Write_side.

Context {E : Env}.

Lemma _write_sent (m : Message) (s : socket) (n : Z) :
  sock m = Some s -> _send_buffer m <> [] ->
  _write (Ok n) m
  = (Ok tt,
     set_send_buffer (slice (Some n) None (_send_buffer m))
       (set_log (log m ++ [SocketSend (_send_buffer m)]) m)).
Proof.
  intros Hs Hb. unfold _write, sock_send. unfold_run.
  destruct (_send_buffer m) as [|x buf] eqn:Hbuf; [done|].
  rewrite Hs. proj_fields. by rewrite Hbuf.
Qed.

Lemma _write_raised (m : Message) (s : socket) (e : exn) :
  sock m = Some s -> _send_buffer m <> [] ->
  _write (Raise e) m
  = (if is_BlockingIOError e then Ok tt else Raise e,
     set_log (log m ++ [SocketSend (_send_buffer m)]) m).
Proof.
  intros Hs Hb. unfold _write, sock_send. unfold_run.
  destruct (_send_buffer m) as [|x buf] eqn:Hbuf; [done|].
  rewrite Hs. proj_fields. by destruct (is_BlockingIOError e).
Qed.

(** X8.  When [send] reports [n] bytes sent, [_write] removes exactly
    the first [n] bytes of the outbound buffer: what was sent followed
    by what is kept is the old buffer, and the whole old buffer was
    offered to [send]. *)
Theorem send_drains_what_was_sent (m : Message) (s : socket) (n : Z) :
  sock m = Some s -> _send_buffer m <> [] -> 0 <= n ->
  let r := _write (Ok n) m in
  fst r = Ok tt
  /\ _send_buffer (snd r) = drop (Z.to_nat n) (_send_buffer m)
  /\ take (Z.to_nat n) (_send_buffer m) ++ _send_buffer (snd r) = _send_buffer m
  /\ log (snd r) = log m ++ [SocketSend (_send_buffer m)].
Proof.
  intros Hs Hb Hn. cbn zeta. rewrite (_write_sent m s n Hs Hb). proj_fields.
  rewrite slice_from by done. by rewrite take_drop.
Qed.

(** X9.  When [send] raises, [_write] swallows a [BlockingIOError] and
    returns, lets every other exception through, and in both cases
    keeps the whole outbound buffer. *)
Theorem send_failure_keeps_buffer (m : Message) (s : socket) (e : exn) :
  sock m = Some s -> _send_buffer m <> [] ->
  let r := _write (Raise e) m in
  fst r = (if is_BlockingIOError e then Ok tt else Raise e)
  /\ _send_buffer (snd r) = _send_buffer m.
Proof.
  intros Hs Hb. cbn zeta. by rewrite (_write_raised m s e Hs Hb).
Qed.

(** X10.  While no request has been queued, [write] raises before it
    touches the socket: [UnboundLocalError] from [_create_message]
    when the request has a content, [KeyError] when it has none.  The
    outbound buffer is unchanged, the request stays unqueued and
    nothing is done to the outside. *)
Theorem write_unqueued_sends_nothing (o : result Z) (m : Message) :
  _request_queued m = false ->
  let r := write o m in
  fst r = Raise (match request m !! "content" with
                 | Some _ => UnboundLocalError "len"
                 | None => KeyError "content"
                 end)
  /\ _send_buffer (snd r) = _send_buffer m
  /\ _request_queued (snd r) = false
  /\ log (snd r) = log m.
Proof.
  intros Hq. cbn zeta. unfold write, mbind, M_bind, bind, get. rewrite Hq.
  cbn [negb].
  destruct (request m !! "content") as [c|] eqn:Hc.
  - rewrite (queue_request_raises c m Hc). unfold keyed.
    destruct (String.eqb (action c) "login"); proj_fields; auto.
  - unfold queue_request, mbind, M_bind, bind, get, raise. rewrite Hc. auto.
Qed.

(** X11.  With the request queued, a [send] that takes the whole
    outbound buffer empties it and switches the selector to read
    events only (lines 153-156). *)
Theorem write_flushed_turns_to_reading (m : Message) (s : socket) (ev n : Z) :
  sock m = Some s -> registered m = Some ev ->
  _request_queued m = true -> _send_buffer m <> [] ->
  blen (_send_buffer m) <= n ->
  let r := write (Ok n) m in
  fst r = Ok tt
  /\ _send_buffer (snd r) = []
  /\ registered (snd r) = Some EVENT_READ.
Proof.
  intros Hs Hr Hq Hb Hn. cbn zeta. unfold write, mbind, M_bind, bind, get.
  rewrite Hq. cbn [negb]. unfold mret, M_ret, ret.
  rewrite (_write_sent m s n Hs Hb). proj_fields. rewrite Hq.
  assert (Hd : slice (Some n) None (_send_buffer m) = []).
  { unfold blen in Hn. rewrite slice_from by lia. apply drop_ge. lia. }
  rewrite Hd. unfold _set_selector_events_mask, selector_modify. unfold_run.
  cbn [String.eqb Ascii.eqb Bool.eqb]. proj_fields. by rewrite Hs, Hr.
Qed.

(** X12.  With the request queued, a [send] that takes only part of
    the outbound buffer leaves the rest in it and leaves the selector
    registration as it was, so the connection keeps waiting to
    write. *)
Theorem write_partial_keeps_writing (m : Message) (s : socket) (n : Z) :
  sock m = Some s ->
  _request_queued m = true ->
  0 <= n < blen (_send_buffer m) ->
  let r := write (Ok n) m in
  fst r = Ok tt
  /\ _send_buffer (snd r) = drop (Z.to_nat n) (_send_buffer m)
  /\ _send_buffer (snd r) <> []
  /\ registered (snd r) = registered m.
Proof.
  intros Hs Hq Hn. cbn zeta. unfold write, mbind, M_bind, bind, get.
  rewrite Hq. cbn [negb]. unfold mret, M_ret, ret.
  assert (Hb : _send_buffer m <> []).
  { intros Hnil. rewrite Hnil in Hn. unfold blen in Hn. cbn [length] in Hn. lia. }
  rewrite (_write_sent m s n Hs Hb). proj_fields. rewrite Hq.
  rewrite slice_from by lia.
  assert (Hd : drop (Z.to_nat n) (_send_buffer m) <> []).
  { intros Hnil. apply (f_equal length) in Hnil. rewrite length_drop in Hnil.
    unfold blen in Hn. cbn [length] in Hnil. lia. }
  destruct (drop (Z.to_nat n) (_send_buffer m)) as [|x rest] eqn:Hdrop; [done|].
  proj_fields. auto.
Qed.

End Write_side.

(** *** Dispatch *)

Section Events.

Context {E : Env}.

(** X13.  When the mask has the read bit, [process_events] ends as
    [read] ends: since [read] always raises, the write branch of line
    135 is not reached in that call. *)
Theorem process_events_read_bit (mask : Z) (ro : result bytes) (so : result Z)
    (m : Message) :
  Z.land mask EVENT_READ <> 0 ->
  process_events mask ro so m = read ro m.
Proof.
  intros Hbit. unfold process_events, mbind, M_bind, bind.
  apply Z.eqb_neq in Hbit. rewrite Hbit. cbn [negb].
  destruct (read_always_raises ro m) as ([e He] & _).
  destruct (read ro m) as [r m'] eqn:Hr. cbn in He. by subst r.
Qed.

(** X14.  Starting from an object whose request is not queued, no call
    of [process_events], whatever the mask and whatever the socket
    answers, queues the request, changes the outbound buffer or calls
    [send]. *)
Theorem process_events_never_sends (mask : Z) (ro : result bytes) (so : result Z)
    (m : Message) :
  _request_queued m = false ->
  let r := process_events mask ro so m in
  _request_queued (snd r) = false
  /\ _send_buffer (snd r) = _send_buffer m
  /\ (forall data, In (SocketSend data) (log (snd r)) -> In (SocketSend data) (log m)).
Proof.
  intros Hq. cbn zeta.
  destruct (Z.eq_dec (Z.land mask EVENT_READ) 0) as [Hr|Hr].
  - unfold process_events, mbind, M_bind, bind.
    apply Z.eqb_eq in Hr. rewrite Hr. cbn [negb]. unfold mret, M_ret, ret.
    destruct (Z.land mask EVENT_WRITE =? 0); cbn [negb].
    + auto.
    + destruct (write_unqueued_sends_nothing so m Hq) as (_ & Hb & Hq' & Hl).
      rewrite Hl. auto.
  - rewrite (process_events_read_bit mask ro so m Hr).
    destruct (read_always_raises ro m) as (_ & _ & _ & Hb & Hq' & Hl).
    rewrite Hq'. repeat split; [done..|].
    intros data [Hin|[Heq|[buf Heq]]]%Hl; [done|discriminate..].
Qed.

End Events.

(** *** Teardown *)

Section Teardown.

Context {E : Env}.

(** X15.  On an object that still has its socket, [close] always
    returns: an exception of [unregister] or an [OSError] of
    [socket.close()] is printed, not raised.  Afterwards [self.sock] is
    [None] and the socket is not registered; the buffers, the counters
    and the key are untouched. *)
Theorem close_on_open_socket (m : Message) (s : socket) :
  sock m = Some s ->
  let r := close m in
  fst r = Ok tt
  /\ sock (snd r) = None
  /\ registered (snd r) = None
  /\ sock_closed (snd r)
     = (match sock_close_error with None => true | Some _ => sock_closed m end)
  /\ _recv_buffer (snd r) = _recv_buffer m
  /\ _send_buffer (snd r) = _send_buffer m
  /\ _sqn (snd r) = _sqn m
  /\ _rcvsqn (snd r) = _rcvsqn m
  /\ key (snd r) = key m.
Proof.
  intros Hs. cbn zeta.
  unfold close, selector_unregister, sock_close. unfold_run.
  destruct m as [sk ad rq rb sb qd ky hl al sq rs rg sc dr lg].
  cbn in Hs. subst sk.
  destruct rg as [ev|], sock_close_error as [msg|]; cbn; auto 10.
Qed.

Lemma close_without_socket (m : Message) :
  sock m = None ->
  fst (close m) = Raise (AttributeError "'NoneType' object has no attribute 'close'")
  /\ sock (snd (close m)) = None
  /\ registered (snd (close m)) = registered m.
Proof.
  intros Hs.
  unfold close, selector_unregister, sock_close. unfold_run.
  destruct m as [sk ad rq rb sb qd ky hl al sq rs rg sc dr lg].
  cbn in Hs. subst sk. cbn. auto.
Qed.

(** X16.  [close] is not idempotent: the second of two calls raises
    [AttributeError], because the first has set [self.sock] to [None]
    and [self.sock.close()] is guarded against [OSError] only. *)
Theorem close_twice_raises (m : Message) (s : socket) :
  sock m = Some s ->
  fst ((close ≫= fun _ => close) m)
  = Raise (AttributeError "'NoneType' object has no attribute 'close'").
Proof.
  intros Hs. destruct (close_on_open_socket m s Hs) as (Hok & Hnone & _).
  unfold mbind, M_bind, bind.
  destruct (close m) as [r m'] eqn:Hc. cbn in Hok, Hnone. subst r.
  apply (close_without_socket m' Hnone).
Qed.

(** X17.  A mode other than ["r"], ["w"] and ["rw"] makes
    [_set_selector_events_mask] raise [ValueError] before the selector
    is called; the object is unchanged. *)
Theorem events_mask_invalid_mode (mode : string) (m : Message) :
  mode <> "r" -> mode <> "w" -> mode <> "rw" ->
  _set_selector_events_mask mode m
  = (Raise (ValueError ("Invalid events mask mode " +:+ repr_str mode +:+ ".")), m).
Proof.
  intros Hr Hw Hrw. unfold _set_selector_events_mask. unfold_run.
  apply String.eqb_neq in Hr, Hw, Hrw. by rewrite Hr, Hw, Hrw.
Qed.

(** X18.  After [close], [_set_selector_events_mask] raises
    [ValueError] for every mode, and the socket stays unregistered. *)
Theorem events_mask_after_close (mode : string) (m : Message) (s : socket) :
  sock m = Some s ->
  let r := (close ≫= fun _ => _set_selector_events_mask mode) m in
  (exists e, fst r = Raise (ValueError e))
  /\ registered (snd r) = None.
Proof.
  intros Hs. destruct (close_on_open_socket m s Hs) as (Hok & Hnone & Hreg & _).
  cbn zeta. unfold mbind, M_bind, bind.
  destruct (close m) as [r m'] eqn:Hc. cbn in Hok, Hnone, Hreg. subst r.
  unfold _set_selector_events_mask, selector_modify. unfold_run.
  destruct (String.eqb mode "r"); [|destruct (String.eqb mode "w");
    [|destruct (String.eqb mode "rw")]]; rewrite ?Hnone; proj_fields; eauto.
Qed.

End Teardown.

(** *** What the codec methods do before and after their use of [len] *)

Section Blocks.

Context {E : Env}.

Lemma payload_local_in_process_response :
  bool_decide ("payload" ∈ co_varnames co_process_response) = true.
Proof. by vm_compute. Qed.

(** X19.  A login call of [_create_message] has replaced [self.key]
    by the next 32 bytes of the random source when it raises at line
    80, and has changed nothing else of the object but the position in
    that source; a second login call replaces the key by the 32 bytes
    that follow. *)
Theorem login_rekeys_before_raising (value value' : bytes) (m : Message) :
  _create_message "login" value m
  = (Raise (UnboundLocalError "len"),
     set_key (Some (map urandom (seq (drawn m) 32))) (set_drawn (drawn m + 32)%nat m))
  /\ blen (map urandom (seq (drawn m) 32)) = 32
  /\ key (snd (_create_message "login" value' (snd (_create_message "login" value m))))
     = Some (map urandom (seq (drawn m + 32) 32)).
Proof.
  rewrite !_create_message_raises. unfold keyed.
  cbn [String.eqb Ascii.eqb Bool.eqb].
  split; [reflexivity|]. split; [|reflexivity].
  unfold blen. by rewrite length_map, length_seq.
Qed.

(** X20.  A call of [_create_message] with any other action raises at
    line 80 and leaves the whole object as it was: the key is not
    replaced and no random byte is drawn. *)
Theorem other_action_leaves_object (act : string) (value : bytes) (m : Message) :
  act <> "login" ->
  _create_message act value m = (Raise (UnboundLocalError "len"), m).
Proof.
  intros Ha. rewrite _create_message_raises. unfold keyed.
  apply String.eqb_neq in Ha. by rewrite Ha.
Qed.

(** X21.  Lines 202-209, run on an object that has its socket, always
    return to the statement that follows: a sequence number that is
    not greater than the receive counter closes the connection
    ([self.sock] becomes [None]) but does not stop the method, and the
    receive counter and the inbound buffer are unchanged either way. *)
Theorem check_sequence_never_stops (p : fields) (m : Message) (s : socket) :
  sock m = Some s ->
  let r := check_sequence p m in
  fst r = Ok tt
  /\ sock (snd r) = (if from_bytes (f_sqn p) <=? _rcvsqn m then None else Some s)
  /\ _rcvsqn (snd r) = _rcvsqn m
  /\ _recv_buffer (snd r) = _recv_buffer m.
Proof.
  intros Hs. cbn zeta. unfold check_sequence. unfold_run. proj_fields.
  destruct (from_bytes (f_sqn p) <=? _rcvsqn m).
  - match goal with
    | |- context [close ?m2] =>
        destruct (close_on_open_socket m2 s Hs)
          as (Hok & Hnone & _ & _ & Hrb & _ & _ & Hrs & _);
        destruct (close m2) as [r m3]
    end.
    cbn in Hok, Hnone, Hrb, Hrs. subst r. proj_fields. auto.
  - proj_fields. auto.
Qed.


(** X23.  Lines 211-229 on a message whose tag verifies under the
    32-byte session key, with the nonce [sqn + rnd] and the header as
    associated data: the method returns, the receive counter is
    advanced by exactly one, the inbound buffer is cut at [msg_len],
    the last thing printed is the decrypted payload, and the socket is
    left alone. *)
Theorem verified_message_is_committed (p : fields) (f : frame) (msg_len : Z)
    (m : Message) (kb pt : bytes) :
  key m = Some kb ->
  blen kb = 32 ->
  f_sqn p ++ f_rnd p <> [] ->
  gcm_decrypt_and_verify kb (f_sqn p ++ f_rnd p) 12 (f_header p)
    (f_encrypted_payload p) (f_authtag p) = Some pt ->
  let r := (verify_and_decrypt p f ≫= commit msg_len) m in
  fst r = Ok tt
  /\ _rcvsqn (snd r) = _rcvsqn m + 1
  /\ _recv_buffer (snd r) = slice (Some msg_len) None (_recv_buffer m)
  /\ (exists l, log (snd r) = l ++ [StdoutBytes pt])
  /\ sock (snd r) = sock m.
Proof.
  intros Hk Hlen Hnonce Hgcm. cbn zeta.
  unfold verify_and_decrypt, commit, AES_new, AE_update, AE_decrypt_and_verify.
  unfold_run. proj_fields. rewrite Hk.
  destruct (f_sqn p ++ f_rnd p) as [|x nonce] eqn:Hn; [done|].
  rewrite Hlen. cbn [Z.leb Z.eqb Z.compare Pos.compare Pos.compare_cont Pos.eqb
                     andb orb negb].
  cbn [ae_key ae_nonce ae_mac_len ae_aad app]. rewrite Hgcm. proj_fields.
  unfold load. rewrite payload_local_in_process_response, lookup_insert_eq.
  proj_fields. eauto 10.
Qed.

End Blocks.

(** *** The further properties on the sample data *)

Lemma field_round_trip_witness :
  exists b, to_bytes2 284 = Ok b /\ blen b = 2 /\ from_bytes b = 284.
Proof. apply (field_round_trip 284). lia. Defined.

Lemma parse_partitions_witness :
  let p := fst (parse (sample_frame 1 hi)) in
  28 <= blen (sample_frame 1 hi)
  /\ f_header p ++ f_encrypted_payload p ++ f_authtag p = sample_frame 1 hi.
Proof.
  cbn zeta. assert (Hn : 28 <= blen (sample_frame 1 hi)) by (by vm_compute).
  split; [exact Hn|]. apply (parse_partitions (sample_frame 1 hi) Hn).
Defined.

Lemma parse_short_message_witness :
  blen partial_frame <= 12
  /\ f_header (fst (parse partial_frame)) = partial_frame
  /\ f_authtag (fst (parse partial_frame)) = partial_frame
  /\ f_encrypted_payload (fst (parse partial_frame)) = [].
Proof.
  assert (Hn : blen partial_frame <= 12) by (by vm_compute).
  split; [exact Hn|]. apply (parse_short_message partial_frame Hn).
Defined.

Lemma recv_accumulates_witness :
  _recv_buffer
    (snd ((_read (Ok partial_frame) ≫= fun _ => _read (Ok hi))
            sample_message))
  = _recv_buffer sample_message ++ partial_frame ++ hi.
Proof.
  apply (recv_accumulates sample_message (Socket 3) partial_frame hi);
    [reflexivity | discriminate | discriminate].
Defined.

Lemma recv_exceptions_witness :
  fst (_read (Raise BlockingIOError) sample_message) = Ok tt
  /\ _recv_buffer (snd (_read (Raise BlockingIOError) sample_message))
     = _recv_buffer sample_message.
Proof.
  apply (recv_exceptions sample_message (Socket 3) BlockingIOError).
  reflexivity.
Defined.

Lemma send_drains_what_was_sent_witness :
  _send_buffer (snd (_write (Ok 2) (queued partial_frame)))
  = drop 2 partial_frame.
Proof.
  apply (send_drains_what_was_sent (queued partial_frame) (Socket 3) 2);
    [reflexivity | discriminate | lia].
Defined.

Lemma send_failure_keeps_buffer_witness :
  fst (_write (Raise (OSError "reset")) (queued hi)) = Raise (OSError "reset")
  /\ _send_buffer (snd (_write (Raise (OSError "reset")) (queued hi))) = hi.
Proof.
  apply (send_failure_keeps_buffer (queued hi) (Socket 3) (OSError "reset"));
    [reflexivity | discriminate].
Defined.

Lemma write_unqueued_sends_nothing_witness :
  _request_queued sample_message = false
  /\ fst (@write sample_env (Ok 0) sample_message) = Raise (UnboundLocalError "len").
Proof.
  split; [reflexivity|].
  apply (@write_unqueued_sends_nothing sample_env (Ok 0) sample_message).
  reflexivity.
Defined.

Lemma write_flushed_turns_to_reading_witness :
  fst (@write sample_env (Ok 2) (queued hi)) = Ok tt
  /\ _send_buffer (snd (@write sample_env (Ok 2) (queued hi))) = []
  /\ registered (snd (@write sample_env (Ok 2) (queued hi))) = Some EVENT_READ.
Proof.
  apply (@write_flushed_turns_to_reading sample_env (queued hi) (Socket 3) EVENT_WRITE 2);
    [reflexivity | reflexivity | reflexivity | discriminate | by vm_compute].
Defined.

Lemma write_partial_keeps_writing_witness :
  _send_buffer (snd (@write sample_env (Ok 2) (queued partial_frame)))
  = drop 2 partial_frame
  /\ registered (snd (@write sample_env (Ok 2) (queued partial_frame)))
     = Some EVENT_WRITE.
Proof.
  destruct (@write_partial_keeps_writing sample_env (queued partial_frame) (Socket 3) 2)
    as (_ & Hb & _ & Hr); [reflexivity | reflexivity | by vm_compute |].
  split; [exact Hb | exact Hr].
Defined.

Lemma process_events_read_bit_witness :
  @process_events sample_env 3 (Ok hi) (Ok 0) sample_message
  = @read sample_env (Ok hi) sample_message.
Proof.
  apply (@process_events_read_bit sample_env 3 (Ok hi) (Ok 0) sample_message).
  by vm_compute.
Defined.

Lemma process_events_never_sends_witness :
  _request_queued sample_message = false
  /\ _request_queued (snd (@process_events sample_env 2 (Ok hi) (Ok 0) sample_message))
     = false.
Proof.
  split; [reflexivity|].
  apply (@process_events_never_sends sample_env 2 (Ok hi) (Ok 0) sample_message).
  reflexivity.
Defined.

Lemma close_on_open_socket_witness :
  sock sample_message = Some (Socket 3)
  /\ fst (@close sample_env sample_message) = Ok tt
  /\ sock (snd (@close sample_env sample_message)) = None.
Proof.
  split; [reflexivity|].
  destruct (@close_on_open_socket sample_env sample_message (Socket 3) eq_refl)
    as (Hok & Hnone & _).
  split; [exact Hok | exact Hnone].
Defined.

Lemma close_twice_raises_witness :
  fst ((@close sample_env ≫= fun _ => @close sample_env) sample_message)
  = Raise (AttributeError "'NoneType' object has no attribute 'close'").
Proof.
  apply (@close_twice_raises sample_env sample_message (Socket 3)). reflexivity.
Defined.

Lemma events_mask_invalid_mode_witness :
  _set_selector_events_mask "x" sample_message
  = (Raise (ValueError "Invalid events mask mode 'x'."), sample_message).
Proof.
  apply (events_mask_invalid_mode "x" sample_message); discriminate.
Defined.

Lemma events_mask_after_close_witness :
  registered
    (snd ((@close sample_env ≫= fun _ => _set_selector_events_mask "w")
            sample_message))
  = None.
Proof.
  apply (@events_mask_after_close sample_env "w" sample_message (Socket 3)).
  reflexivity.
Defined.

Lemma other_action_leaves_object_witness :
  @_create_message sample_env "send" hi sample_message
  = (Raise (UnboundLocalError "len"), sample_message).
Proof.
  apply (@other_action_leaves_object sample_env "send" hi sample_message).
  discriminate.
Defined.

Lemma check_sequence_never_stops_witness :
  let m := established 3 (sample_frame 3 hi) in
  let r := @check_sequence sample_env (fst (parse (sample_frame 3 hi))) m in
  sock m = Some (Socket 3) /\ fst r = Ok tt /\ sock (snd r) = None.
Proof.
  cbn zeta. split; [reflexivity|].
  destruct (@check_sequence_never_stops sample_env
              (fst (parse (sample_frame 3 hi)))
              (established 3 (sample_frame 3 hi)) (Socket 3) eq_refl)
    as (Hok & Hs & _).
  split; [exact Hok | exact Hs].
Defined.


Lemma verified_message_is_committed_witness :
  let m := established 0 (sample_frame 1 hi) in
  let r := (@verify_and_decrypt sample_env (fst (parse (sample_frame 1 hi)))
              (snd (parse (sample_frame 1 hi))) ≫= commit 30) m in
  fst r = Ok tt /\ _rcvsqn (snd r) = 1 /\ _recv_buffer (snd r) = [].
Proof.
  cbn zeta.
  destruct (@verified_message_is_committed sample_env
              (fst (parse (sample_frame 1 hi))) (snd (parse (sample_frame 1 hi))) 30
              (established 0 (sample_frame 1 hi)) sample_key hi)
    as (Hr & Hn & Hb & _);
    [reflexivity | reflexivity | discriminate | by vm_compute |].
  split; [exact Hr|]. split; [exact Hn|]. rewrite Hb. by vm_compute.
Defined.
